(** * EIP-712 cross-check script ([verify-eip712.py]): embedding and properties

    The script recomputes an EIP-712 domain separator, struct hash and
    message hash and compares them with three constants printed by a second
    implementation.  This development embeds the script's functions and
    top-level computations and proves the properties stated for them. *)

From Stdlib Require Import ZArith List String Ascii Lia Bool.
From Stdlib Require Import Init.Byte Strings.Byte.
Import ListNotations.

Local Open Scope Z_scope.

(** ** Python values used by the script *)

(** [bytes] objects. *)
Definition bytes := list byte.

Definition Z_of_byte (b : byte) : Z := Z.of_N (Byte.to_N b).

(** The byte with value [z mod 256]. *)
Definition byte_of_Z (z : Z) : byte :=
  match Byte.of_N (Z.to_N (z mod 256)) with
  | Some b => b
  | None => x00
  end.

(** The exceptions the built-ins used by the script can raise. *)
Inductive exception : Set :=
| OverflowError   (* int.to_bytes: negative value, or value too big *)
| ValueError.     (* bytes.fromhex: non-hexadecimal input *)

(** Outcome of a Python expression: a value, or a raised exception. *)
Inductive result (A : Type) : Type :=
| Ok (a : A)
| Raise (e : exception).
Arguments Ok {A} a.
Arguments Raise {A} e.

Definition bind {A B : Type} (r : result A) (k : A -> result B) : result B :=
  match r with
  | Ok a => k a
  | Raise e => Raise e
  end.

Notation "x <- r ;; k" := (bind r (fun x => k))
  (at level 61, r at next level, right associativity).

(** ** Keccak: the [Crypto.Hash.keccak] object

    The script obtains its hash from the library object created by
    [keccak.new(digest_bits=256)].  The object is a sponge over the
    Keccak-f[1600] permutation with the original Keccak padding (first
    padding byte 0x01, last padding byte or-ed with 0x80). *)
Module Keccak.

(** A lane is a 64-bit word, held as a [Z] in [0, 2^64). *)
Definition mask64 : Z := Z.ones 64.

(** 64-bit rotation to the left, by [n] with [0 <= n < 64]. *)
Definition rol64 (x n : Z) : Z :=
  Z.lor (Z.land (Z.shiftl x n) mask64) (Z.shiftr x (64 - n)).

(** 64-bit bitwise complement. *)
Definition not64 (x : Z) : Z := Z.lxor x mask64.

(** The state: 25 lanes, lane (x, y) at index [x + 5 * y]. *)
Definition state := list Z.

Definition lane (A : state) (x y : nat) : Z :=
  nth ((x mod 5) + 5 * (y mod 5))%nat A 0.

Definition initial_state : state := repeat 0 25.

(** Builds a state from a function of the coordinates. *)
Definition tabulate (f : nat -> nat -> Z) : state :=
  map (fun i => f (i mod 5)%nat (i / 5)%nat) (seq 0 25).

Definition round_constants : list Z :=
  [ 0x0000000000000001; 0x0000000000008082; 0x800000000000808A;
    0x8000000080008000; 0x000000000000808B; 0x0000000080000001;
    0x8000000080008081; 0x8000000000008009; 0x000000000000008A;
    0x0000000000000088; 0x0000000080008009; 0x000000008000000A;
    0x000000008000808B; 0x800000000000008B; 0x8000000000008089;
    0x8000000000008003; 0x8000000000008002; 0x8000000000000080;
    0x000000000000800A; 0x800000008000000A; 0x8000000080008081;
    0x8000000000008080; 0x0000000080000001; 0x8000000080008008 ].

(** Rotation offsets, offset of lane (x, y) at index [x + 5 * y]. *)
Definition rotation_offsets : list Z :=
  [  0;  1; 62; 28; 27;
    36; 44;  6; 55; 20;
     3; 10; 43; 25; 39;
    41; 45; 15; 21;  8;
    18;  2; 61; 56; 14 ].

Definition theta (A : state) : state :=
  let C x := fold_left Z.lxor (map (lane A x) (seq 0 5)) 0 in
  let D x := Z.lxor (C (x + 4)%nat) (rol64 (C (x + 1)%nat) 1) in
  tabulate (fun x y => Z.lxor (lane A x y) (D x)).

(** rho and pi together: B[y, 2x + 3y] = rol(A[x, y], r[x, y]). *)
Definition rho_pi (A : state) : state :=
  tabulate (fun x y =>
    let x' := ((x + 3 * y) mod 5)%nat in
    rol64 (lane A x' x) (nth (x' + 5 * x)%nat rotation_offsets 0)).

Definition chi (B : state) : state :=
  tabulate (fun x y =>
    Z.lxor (lane B x y)
           (Z.land (not64 (lane B (x + 1) y)) (lane B (x + 2) y))).

Definition iota (rc : Z) (A : state) : state :=
  match A with
  | [] => []
  | a :: rest => Z.lxor a rc :: rest
  end.

Definition round (A : state) (rc : Z) : state :=
  iota rc (chi (rho_pi (theta A))).

(** Keccak-f[1600]: the 24 rounds. *)
Definition keccak_f (A : state) : state :=
  fold_left round round_constants A.

(** The little-endian 64-bit word held in bytes [8 i .. 8 i + 7] of a
    block; bytes past the end of the block count as zero. *)
Definition load64 (block : bytes) (i : nat) : Z :=
  fold_right (fun b acc => Z_of_byte b + 256 * acc) 0
             (firstn 8 (skipn (8 * i) block)).

(** Xors one block of [rate] bytes into the state and permutes. *)
Definition absorb (A : state) (block : bytes) : state :=
  keccak_f (map (fun i => Z.lxor (nth i A 0) (load64 block i)) (seq 0 25)).

(** The hash object: the sponge state and the bytes not yet absorbed. *)
Record Keccak_Hash : Type := mkHash {
  digest_size : nat;      (* bytes of output *)
  rate : nat;             (* bytes per block *)
  sponge : state;
  pending : bytes         (* fewer than [rate] bytes *)
}.

(** [keccak.new(digest_bits=n)]: the capacity is twice the digest size. *)
Definition new (digest_bits : nat) : Keccak_Hash :=
  {| digest_size := (digest_bits / 8)%nat;
     rate := ((1600 - 2 * digest_bits) / 8)%nat;
     sponge := initial_state;
     pending := [] |}.

(** Feeds one byte; a full block is absorbed at once. *)
Definition update_byte (k : Keccak_Hash) (b : byte) : Keccak_Hash :=
  let buf := (pending k ++ [b])%list in
  if (List.length buf =? rate k)%nat
  then {| digest_size := digest_size k; rate := rate k;
          sponge := absorb (sponge k) buf; pending := [] |}
  else {| digest_size := digest_size k; rate := rate k;
          sponge := sponge k; pending := buf |}.

(** [k.update(data)]. *)
Definition update (k : Keccak_Hash) (data : bytes) : Keccak_Hash :=
  fold_left update_byte data k.

(** The last block: the pending bytes, the byte 0x01, zeros up to the
    rate, and 0x80 or-ed into the last byte. *)
Definition pad (r : nat) (buf : bytes) : bytes :=
  map (fun i =>
         let b := Z_of_byte (nth i (buf ++ [x01])%list x00) in
         byte_of_Z (if (S i =? r)%nat then Z.lor b 0x80 else b))
      (seq 0 r).

(** Byte [i] of the state, lanes in little-endian byte order. *)
Definition state_byte (A : state) (i : nat) : byte :=
  byte_of_Z (Z.shiftr (nth (i / 8)%nat A 0) (8 * Z.of_nat (i mod 8))).

(** [k.digest()]. *)
Definition digest (k : Keccak_Hash) : bytes :=
  let A := absorb (sponge k) (pad (rate k) (pending k)) in
  map (state_byte A) (seq 0 (digest_size k)).

End Keccak.

(** ** Python built-ins used by the script

    A [str] is a [string] whose characters are code points below 256; the
    script's literals are all ASCII. *)

(** [s.encode('utf-8')]: one byte below 128, two bytes from 128 to 255. *)
Definition utf8_char (c : ascii) : bytes :=
  let n := Z.of_N (N_of_ascii c) in
  if n <? 128 then [byte_of_Z n]
  else [byte_of_Z (Z.lor 0xC0 (Z.shiftr n 6));
        byte_of_Z (Z.lor 0x80 (Z.land n 0x3F))].

Definition encode_utf8 (s : string) : bytes :=
  flat_map utf8_char (list_ascii_of_string s).

(** The [n] big-endian bytes of [v mod 256^n]. *)
Fixpoint big_endian (n : nat) (v : Z) : bytes :=
  match n with
  | O => []
  | S n' => big_endian n' (v / 256) ++ [byte_of_Z v]
  end.

(** [value.to_bytes(length, 'big')]: unsigned, so a negative value and a
    value that does not fit in [length] bytes raise [OverflowError]. *)
Definition to_bytes (value : Z) (length : nat) : result bytes :=
  if value <? 0 then Raise OverflowError
  else if 256 ^ Z.of_nat length <=? value then Raise OverflowError
  else Ok (big_endian length value).

(** [int.from_bytes(b, 'big')]. *)
Definition from_bytes (b : bytes) : Z :=
  fold_left (fun acc x => 256 * acc + Z_of_byte x) b 0.

(** [s[n:]]. *)
Fixpoint slice_from (n : nat) (s : string) : string :=
  match n, s with
  | O, _ => s
  | S _, EmptyString => EmptyString
  | S n', String _ s' => slice_from n' s'
  end.

(** ASCII whitespace, which [bytes.fromhex] skips between bytes. *)
Definition is_space (c : ascii) : bool :=
  let n := N_of_ascii c in
  ((n =? 32) || ((9 <=? n) && (n <=? 13)))%N.

(** Value of a hexadecimal digit, in either case. *)
Definition digit_value (c : ascii) : option Z :=
  let n := Z.of_N (N_of_ascii c) in
  if (48 <=? n) && (n <=? 57) then Some (n - 48)
  else if (97 <=? n) && (n <=? 102) then Some (n - 87)
  else if (65 <=? n) && (n <=? 70) then Some (n - 55)
  else None.

(** Whether a character is a hexadecimal digit. *)
Definition is_hex_digit (c : ascii) : bool :=
  match digit_value c with
  | Some _ => true
  | None => false
  end.

Fixpoint fromhex_chars (l : list ascii) : result bytes :=
  match l with
  | [] => Ok []
  | c :: rest =>
      if is_space c then fromhex_chars rest
      else
        match digit_value c, rest with
        | Some top, d :: rest' =>
            match digit_value d with
            | Some bot =>
                tail <- fromhex_chars rest' ;;
                Ok (byte_of_Z (16 * top + bot) :: tail)
            | None => Raise ValueError
            end
        | _, _ => Raise ValueError
        end
  end.

(** [bytes.fromhex(s)]: pairs of hexadecimal digits, whitespace allowed
    between pairs; anything else raises [ValueError]. *)
Definition fromhex (s : string) : result bytes :=
  fromhex_chars (list_ascii_of_string s).

Definition hex_digit (n : Z) : ascii :=
  ascii_of_N (Z.to_N (if n <? 10 then 48 + n else 87 + n)).

(** [b.hex()]: two lowercase hexadecimal digits per byte. *)
Fixpoint hex (b : bytes) : string :=
  match b with
  | [] => EmptyString
  | x :: rest =>
      String (hex_digit (Z_of_byte x / 16))
        (String (hex_digit (Z_of_byte x mod 16)) (hex rest))
  end.

(** ** The script's functions *)

(** [keccak256(data)]: a fresh hash object per call. *)
Definition keccak256 (data : bytes) : bytes :=
  let k := Keccak.new 256 in
  let k := Keccak.update k data in
  Keccak.digest k.

(** [encode_u256(value)]. *)
Definition encode_u256 (value : Z) : result bytes :=
  to_bytes value 32.

(** [encode_address(address)]. *)
Definition encode_address (address : string) : result bytes :=
  addr_bytes <- fromhex (slice_from 2 address) ;;
  Ok (repeat x00 12 ++ addr_bytes).

(** ** The script's top-level computations

    Each part of the script is embedded as a function of the constants it
    reads; [Script] below instantiates them with the script's literals. *)

(** Lines 40-60: the domain separator. *)
Module Domain.
Section Domain.
Variables (DOMAIN_TYPE NAME VERSION : string) (CHAIN_ID : Z)
          (VERIFYING_CONTRACT : string).

Definition domain_type_hash : bytes := keccak256 (encode_utf8 DOMAIN_TYPE).
Definition name_hash : bytes := keccak256 (encode_utf8 NAME).
Definition version_hash : bytes := keccak256 (encode_utf8 VERSION).

Definition chain_id_bytes : result bytes := encode_u256 CHAIN_ID.
Definition address_bytes : result bytes := encode_address VERIFYING_CONTRACT.

Definition domain_data : result bytes :=
  chain_id_bytes <- chain_id_bytes ;;
  address_bytes <- address_bytes ;;
  Ok (domain_type_hash ++ name_hash ++ version_hash
        ++ chain_id_bytes ++ address_bytes).

Definition domain_separator : result bytes :=
  domain_data <- domain_data ;;
  Ok (keccak256 domain_data).
End Domain.
End Domain.

(** Lines 68-88: the struct hash. *)
Module Struct.
Section Struct.
Variables (STRUCT_TYPE METHOD PATH : string) (TIMESTAMP NONCE : Z).

Definition struct_type_hash : bytes := keccak256 (encode_utf8 STRUCT_TYPE).
Definition method_hash : bytes := keccak256 (encode_utf8 METHOD).
Definition path_hash : bytes := keccak256 (encode_utf8 PATH).

Definition timestamp_bytes : result bytes := encode_u256 TIMESTAMP.
Definition nonce_bytes : result bytes := encode_u256 NONCE.

Definition struct_data : result bytes :=
  timestamp_bytes <- timestamp_bytes ;;
  nonce_bytes <- nonce_bytes ;;
  Ok (struct_type_hash ++ method_hash ++ path_hash
        ++ timestamp_bytes ++ nonce_bytes).

Definition struct_hash : result bytes :=
  struct_data <- struct_data ;;
  Ok (keccak256 struct_data).
End Struct.
End Struct.

(** Lines 96-99: the message hash. *)
Module Message.
Section Message.
Variables domain_separator struct_hash : bytes.

Definition message : bytes :=
  [x19; x01] ++ domain_separator ++ struct_hash.

Definition message_hash : bytes := keccak256 message.
End Message.
End Message.

(** The script as it runs, with its literals. *)
Module Script.

Definition DOMAIN_TYPE : string :=
  "EIP712Domain(string name,string version,uint256 chainId,address verifyingContract)".
Definition NAME : string := "DataNode".
Definition VERSION : string := "1".
Definition CHAIN_ID : Z := 111222333.
Definition VERIFYING_CONTRACT : string :=
  "0x5dE1C21682EF8b39aeB0BA9FA6068C650d3f744e".

Definition STRUCT_TYPE : string :=
  "DataNodeRequest(string method,string path,uint256 timestamp,uint256 nonce)".
Definition METHOD : string := "GET".
Definition PATH : string := "/api/v1/prices/finnhub".
Definition TIMESTAMP : Z := 1770084386.
Definition NONCE : Z := 386866.

Definition domain_separator : result bytes :=
  Domain.domain_separator DOMAIN_TYPE NAME VERSION CHAIN_ID
                          VERIFYING_CONTRACT.

Definition struct_hash : result bytes :=
  Struct.struct_hash STRUCT_TYPE METHOD PATH TIMESTAMP NONCE.

Definition message_hash : result bytes :=
  domain_separator <- domain_separator ;;
  struct_hash <- struct_hash ;;
  Ok (Message.message_hash domain_separator struct_hash).

(** Lines 106-108: the digests printed by the second implementation. *)
Definition ts_domain_sep : string :=
  "b54e71ed181dc14d1d4268384ffba108241611e40a16197e69b9fb4468c862df".
Definition ts_struct_hash : string :=
  "f126db3247e509f0c1215cdbbbfa462f367efb5c5bef8bff98534f6c2e82a0ee".
Definition ts_message_hash : string :=
  "af7fdd88b4ec5903cee293d25f8edde9e97ed9dc9aef5a5261cd1338e10d9a7d".

(** Lines 111-113: the three comparisons the script prints. *)
Definition domain_separator_match : result bool :=
  domain_separator <- domain_separator ;;
  Ok (String.eqb (hex domain_separator) ts_domain_sep).
Definition struct_hash_match : result bool :=
  struct_hash <- struct_hash ;;
  Ok (String.eqb (hex struct_hash) ts_struct_hash).
Definition message_hash_match : result bool :=
  message_hash <- message_hash ;;
  Ok (String.eqb (hex message_hash) ts_message_hash).

End Script.

(** ** The specification's struct encoder, for comparison

    The definitions of this module follow the words of the specification
    (sections 4.3 and 4.4), restricted to the field types the script uses,
    over the script's primitive encoders.  A struct value lists its fields
    in schema order, each with its typed value. *)
Module Spec.

Inductive Value : Type :=
| VString (s : string)
| VUint256 (v : Z)
| VAddress (a : string).

Definition Field : Type := (string * Value)%type.

(** Name of a value's type in a type signature. *)
Definition typeOf (v : Value) : string :=
  match v with
  | VString _ => "string"
  | VUint256 _ => "uint256"
  | VAddress _ => "address"
  end%string.

(** [typeSignature]: [Name(type1 name1,type2 name2,...)]. *)
Definition typeSignature (name : string) (fields : list Field) : string :=
  (name ++ "("
     ++ String.concat ","
          (map (fun f => typeOf (snd f) ++ " " ++ fst f) fields)
     ++ ")")%string.

(** [typeHash]: hash of the UTF-8 bytes of the type signature. *)
Definition typeHash (name : string) (fields : list Field) : bytes :=
  keccak256 (encode_utf8 (typeSignature name fields)).

(** [encodeValue]: dynamic types are hashed, scalars take their fixed
    encoding. *)
Definition encodeValue (v : Value) : result bytes :=
  match v with
  | VString s => Ok (keccak256 (encode_utf8 s))
  | VUint256 n => encode_u256 n
  | VAddress a => encode_address a
  end.

Fixpoint encodeFields (fields : list Field) : result bytes :=
  match fields with
  | [] => Ok []
  | f :: rest =>
      e <- encodeValue (snd f) ;;
      r <- encodeFields rest ;;
      Ok (e ++ r)
  end.

(** [structHash]: hash of the type hash followed by the encoding of each
    field in schema order. *)
Definition structHash (name : string) (fields : list Field) : result bytes :=
  data <- encodeFields fields ;;
  Ok (keccak256 (typeHash name fields ++ data)).

(** A domain; every field is optional.  The salt, which the script never
    has, is left out. *)
Record Domain : Type := {
  name : option string;
  version : option string;
  chainId : option Z;
  verifyingContract : option string
}.

Definition present {A : Type} (n : string) (mk : A -> Value) (o : option A)
  : list Field :=
  match o with
  | Some a => [(n, mk a)]
  | None => []
  end.

(** The fields that are present, in canonical order. *)
Definition domainFields (d : Domain) : list Field :=
  present "name"%string VString (name d)
    ++ present "version"%string VString (version d)
    ++ present "chainId"%string VUint256 (chainId d)
    ++ present "verifyingContract"%string VAddress (verifyingContract d).

(** [domainSeparator]: the struct hash of [EIP712Domain] over the fields
    that are present. *)
Definition domainSeparator (d : Domain) : result bytes :=
  structHash "EIP712Domain" (domainFields d).

(** The [DataNodeRequest] struct value. *)
Definition DataNodeRequest (method path : string) (timestamp nonce : Z)
  : list Field :=
  [ ("method"%string, VString method); ("path"%string, VString path);
    ("timestamp"%string, VUint256 timestamp);
    ("nonce"%string, VUint256 nonce) ].

End Spec.

(** ** Digests

    The three digests the script computes, and the forms in which they are
    stated. *)

Definition domain_separator_bytes : bytes :=
    [ xb5; x4e; x71; xed; x18; x1d; xc1; x4d;
      x1d; x42; x68; x38; x4f; xfb; xa1; x08;
      x24; x16; x11; xe4; x0a; x16; x19; x7e;
      x69; xb9; xfb; x44; x68; xc8; x62; xdf ].

Definition struct_hash_bytes : bytes :=
    [ xf1; x26; xdb; x32; x47; xe5; x09; xf0;
      xc1; x21; x5c; xdb; xbb; xfa; x46; x2f;
      x36; x7e; xfb; x5c; x5b; xef; x8b; xff;
      x98; x53; x4f; x6c; x2e; x82; xa0; xee ].

Definition message_hash_bytes : bytes :=
    [ xaf; x7f; xdd; x88; xb4; xec; x59; x03;
      xce; xe2; x93; xd2; x5f; x8e; xdd; xe9;
      xe9; x7e; xd9; xdc; x9a; xef; x5a; x52;
      x61; xcd; x13; x38; xe1; x0d; x9a; x7d ].

(** A computation returned a digest whose [hex()] is the given string. *)
Definition hex_is (r : result bytes) (s : string) : Prop :=
  match r with
  | Ok d => List.length d = 32%nat /\ hex d = s
  | Raise _ => False
  end.

(** The domain separator as the specification's known-vector scenario
    prints it. *)
Definition spec_domain_separator : string :=
  "b54e71ed181dc14d1d4268384ffba108241611e40a16197e69b9fb4468c862d".

(** * Properties *)

(** ** Bytes and integers *)

Lemma Z_of_byte_range (b : byte) : 0 <= Z_of_byte b < 256.
Proof.
  unfold Z_of_byte. pose proof (Byte.to_N_bounded b). lia.
Qed.

Lemma Z_of_byte_of_Z (z : Z) : Z_of_byte (byte_of_Z z) = z mod 256.
Proof.
  unfold byte_of_Z, Z_of_byte.
  assert (Hr : 0 <= z mod 256 < 256) by (apply Z.mod_pos_bound; lia).
  destruct (Byte.of_N (Z.to_N (z mod 256))) as [b|] eqn:E.
  - apply Byte.to_of_N in E. rewrite E. lia.
  - apply Byte.of_N_None_iff in E. lia.
Qed.

Lemma big_endian_length (n : nat) (v : Z) :
  List.length (big_endian n v) = n.
Proof.
  revert v. induction n as [|n IH]; intros v; simpl.
  - reflexivity.
  - rewrite length_app, IH. simpl. lia.
Qed.

Lemma from_bytes_snoc (l : bytes) (x : byte) :
  from_bytes (l ++ [x]) = 256 * from_bytes l + Z_of_byte x.
Proof.
  unfold from_bytes. rewrite fold_left_app. reflexivity.
Qed.

(** Decoding the [n] big-endian bytes of [v] gives [v] modulo [256^n]. *)
Lemma from_bytes_big_endian (n : nat) (v : Z) :
  from_bytes (big_endian n v) = v mod 256 ^ Z.of_nat n.
Proof.
  revert v. induction n as [|n IH]; intros v.
  - simpl. rewrite Z.mod_1_r. reflexivity.
  - cbn [big_endian]. rewrite from_bytes_snoc, IH, Z_of_byte_of_Z.
    rewrite Nat2Z.inj_succ, Z.pow_succ_r by lia.
    rewrite Z.rem_mul_r by lia. lia.
Qed.

Lemma to_bytes_in_range (v : Z) (n : nat) :
  0 <= v < 256 ^ Z.of_nat n -> to_bytes v n = Ok (big_endian n v).
Proof.
  intros [Hlo Hhi]. unfold to_bytes.
  destruct (Z.ltb_spec v 0); [lia|].
  destruct (Z.leb_spec (256 ^ Z.of_nat n) v); [lia|]. reflexivity.
Qed.

Lemma to_bytes_out_of_range (v : Z) (n : nat) :
  v < 0 \/ 256 ^ Z.of_nat n <= v -> to_bytes v n = Raise OverflowError.
Proof.
  intros H. unfold to_bytes.
  destruct (Z.ltb_spec v 0); [reflexivity|].
  destruct (Z.leb_spec (256 ^ Z.of_nat n) v); [reflexivity|lia].
Qed.

Lemma pow_256_32 : 256 ^ Z.of_nat 32 = 2 ^ 256.
Proof. reflexivity. Qed.

(** ** The hash object *)

Lemma update_byte_digest_size (k : Keccak.Keccak_Hash) (b : byte) :
  Keccak.digest_size (Keccak.update_byte k b) = Keccak.digest_size k.
Proof.
  unfold Keccak.update_byte.
  destruct (_ =? _)%nat; reflexivity.
Qed.

Lemma update_digest_size (data : bytes) (k : Keccak.Keccak_Hash) :
  Keccak.digest_size (Keccak.update k data) = Keccak.digest_size k.
Proof.
  unfold Keccak.update. revert k.
  induction data as [|b data IH]; intros k; simpl.
  - reflexivity.
  - rewrite IH. apply update_byte_digest_size.
Qed.

Lemma digest_length (k : Keccak.Keccak_Hash) :
  List.length (Keccak.digest k) = Keccak.digest_size k.
Proof.
  unfold Keccak.digest. rewrite length_map, length_seq. reflexivity.
Qed.

Lemma keccak256_length (data : bytes) :
  List.length (keccak256 data) = 32%nat.
Proof.
  unfold keccak256. rewrite digest_length, update_digest_size. reflexivity.
Qed.

(** ** [bytes.fromhex] on strings of hexadecimal digits *)

Lemma hex_digit_not_space (c : ascii) :
  is_hex_digit c = true -> is_space c = false.
Proof.
  destruct c as [[] [] [] [] [] [] [] []]; vm_compute; congruence.
Qed.

Lemma fromhex_chars_digits (n : nat) :
  forall l : list ascii,
    List.length l = (2 * n)%nat ->
    Forall (fun c => is_hex_digit c = true) l ->
    exists b, fromhex_chars l = Ok b /\ List.length b = n.
Proof.
  induction n as [|n IH]; intros l Hlen Hall.
  - destruct l; [|discriminate]. exists []. split; reflexivity.
  - destruct l as [|c [|d rest]]; try (simpl in Hlen; lia).
    inversion Hall as [|? ? Hc Hall']; subst.
    inversion Hall' as [|? ? Hd Hrest]; subst.
    destruct (IH rest) as [b [Hb Hn]]; [simpl in Hlen; lia | assumption |].
    cbn [fromhex_chars]. rewrite (hex_digit_not_space c Hc).
    unfold is_hex_digit in Hc, Hd.
    destruct (digit_value c) as [top|]; [|discriminate].
    destruct (digit_value d) as [bot|]; [|discriminate].
    rewrite Hb. cbn [bind].
    eexists. split; [reflexivity|]. simpl. rewrite Hn. reflexivity.
Qed.

Lemma encode_address_ok (address : string) (b : bytes) :
  fromhex (slice_from 2 address) = Ok b ->
  encode_address address = Ok (repeat x00 12 ++ b).
Proof.
  intros H. unfold encode_address. rewrite H. reflexivity.
Qed.

(** ** The script against the specification's encoder *)

Lemma domain_separator_refines
      (name version : string) (chain_id : Z) (contract : string) :
  Domain.domain_separator Script.DOMAIN_TYPE name version chain_id contract
  = Spec.domainSeparator
      {| Spec.name := Some name; Spec.version := Some version;
         Spec.chainId := Some chain_id;
         Spec.verifyingContract := Some contract |}.
Proof.
  unfold Spec.domainSeparator, Spec.structHash, Spec.typeHash,
    Domain.domain_separator, Domain.domain_data, Domain.chain_id_bytes,
    Domain.address_bytes, Domain.domain_type_hash, Domain.name_hash,
    Domain.version_hash.
  cbn [Spec.domainFields Spec.present Spec.name Spec.version Spec.chainId
       Spec.verifyingContract app Spec.encodeFields Spec.encodeValue snd bind].
  change (Spec.typeSignature _ _) with Script.DOMAIN_TYPE.
  destruct (encode_u256 chain_id) as [c|e]; cbn [bind]; [|reflexivity].
  destruct (encode_address contract) as [a|e]; cbn [bind]; [|reflexivity].
  rewrite app_nil_r. reflexivity.
Qed.

Lemma struct_hash_refines (method path : string) (timestamp nonce : Z) :
  Struct.struct_hash Script.STRUCT_TYPE method path timestamp nonce
  = Spec.structHash "DataNodeRequest"
      (Spec.DataNodeRequest method path timestamp nonce).
Proof.
  unfold Spec.structHash, Spec.typeHash, Struct.struct_hash,
    Struct.struct_data, Struct.timestamp_bytes, Struct.nonce_bytes,
    Struct.struct_type_hash, Struct.method_hash, Struct.path_hash.
  cbn [Spec.DataNodeRequest Spec.encodeFields Spec.encodeValue snd bind].
  change (Spec.typeSignature _ _) with Script.STRUCT_TYPE.
  destruct (encode_u256 timestamp) as [t|e]; cbn [bind]; [|reflexivity].
  destruct (encode_u256 nonce) as [m|e]; cbn [bind]; [|reflexivity].
  rewrite app_nil_r. reflexivity.
Qed.

(** ** The digests the script computes *)

Lemma domain_separator_value :
  Script.domain_separator = Ok domain_separator_bytes.
Proof. vm_compute. reflexivity. Qed.

Lemma struct_hash_value : Script.struct_hash = Ok struct_hash_bytes.
Proof. vm_compute. reflexivity. Qed.

Lemma message_hash_value : Script.message_hash = Ok message_hash_bytes.
Proof. vm_compute. reflexivity. Qed.

(** Known vectors of Keccak-256: the empty input and the [EIP712Domain]
    type string. *)
Example keccak256_empty :
  hex (keccak256 [])
  = "c5d2460186f7233c927e7db2dcc703c0e500b653ca82273b7bfad8045d85a470"%string.
Proof. vm_compute. reflexivity. Qed.

Example keccak256_domain_type :
  hex (keccak256 (encode_utf8 Script.DOMAIN_TYPE))
  = "8b73c3c69bb8fe3d512ecc4cf759cc79239f7b179b0ffacaa9a75d522b39400f"%string.
Proof. vm_compute. reflexivity. Qed.
(** ** Stated properties *)

(** C1, as stated, fails: the domain separator the script computes for the
    fixed domain is not the value 0xb54e...c862d of the specification,
    neither as a hexadecimal string nor as a big-endian integer. *)
Lemma domain_separator_differs_from_spec_vector :
  ~ (exists d, Script.domain_separator = Ok d
               /\ (hex d = spec_domain_separator
                   \/ from_bytes d
                      = 0xb54e71ed181dc14d1d4268384ffba108241611e40a16197e69b9fb4468c862d)).
Proof.
  intros [d [H [Hhex | Hint]]]; rewrite domain_separator_value in H;
    injection H as <-.
  - vm_compute in Hhex. discriminate.
  - vm_compute in Hint. discriminate.
Qed.

(** C1, amended: for the fixed domain, the computed domain separator is the
    32-byte digest 0xb54e...c862df (the specification's value with its
    missing last digit f). *)
Theorem domain_separator_known_vector :
  hex_is (Domain.domain_separator
            "EIP712Domain(string name,string version,uint256 chainId,address verifyingContract)"
            "DataNode" "1" 111222333
            "0x5dE1C21682EF8b39aeB0BA9FA6068C650d3f744e")
         "b54e71ed181dc14d1d4268384ffba108241611e40a16197e69b9fb4468c862df".
Proof.
  vm_compute. split; reflexivity.
Qed.

(** C2: for 32-byte [domain_separator] and [struct_hash], the message is the
    two bytes 0x19 0x01 followed by both, 66 bytes long, and the message
    hash is [keccak256] of it. *)
Theorem message_hash_preimage (domain_separator struct_hash : bytes) :
  List.length domain_separator = 32%nat ->
  List.length struct_hash = 32%nat ->
  Message.message domain_separator struct_hash
  = x19 :: x01 :: domain_separator ++ struct_hash
  /\ List.length (Message.message domain_separator struct_hash) = 66%nat
  /\ Message.message_hash domain_separator struct_hash
     = keccak256 (x19 :: x01 :: domain_separator ++ struct_hash).
Proof.
  intros Hd Hs. unfold Message.message_hash, Message.message.
  repeat split. simpl. rewrite length_app, Hd, Hs. reflexivity.
Qed.

Lemma message_hash_preimage_witness :
  List.length (Message.message (repeat x00 32) (repeat xff 32)) = 66%nat.
Proof.
  apply (message_hash_preimage (repeat x00 32) (repeat xff 32));
    reflexivity.
Defined.

(** The script's own message hash is taken over such a 66-byte message. *)
Lemma script_message_hash :
  exists d s,
    Script.domain_separator = Ok d /\ Script.struct_hash = Ok s
    /\ List.length d = 32%nat /\ List.length s = 32%nat
    /\ Script.message_hash = Ok (keccak256 (x19 :: x01 :: d ++ s)).
Proof.
  unfold Script.message_hash.
  rewrite domain_separator_value, struct_hash_value.
  exists domain_separator_bytes, struct_hash_bytes.
  repeat split; reflexivity.
Qed.

(** C3: [encode_u256] returns the 32 big-endian bytes of a value in
    [0, 2^256 - 1], and raises (Python's [OverflowError], the range error of
    the specification) for a negative value and for a value above
    [2^256 - 1]; no out-of-range value is truncated. *)
Theorem encode_u256_range (value : Z) :
  (0 <= value <= 2 ^ 256 - 1 ->
   exists b, encode_u256 value = Ok b
             /\ List.length b = 32%nat /\ from_bytes b = value)
  /\ (value < 0 \/ 2 ^ 256 - 1 < value ->
      encode_u256 value = Raise OverflowError).
Proof.
  unfold encode_u256. split.
  - intros H. exists (big_endian 32 value).
    rewrite to_bytes_in_range by (rewrite pow_256_32; lia).
    split; [reflexivity|]. split; [apply big_endian_length|].
    rewrite from_bytes_big_endian, pow_256_32. apply Z.mod_small. lia.
  - intros H. apply to_bytes_out_of_range. rewrite pow_256_32. lia.
Qed.

Lemma encode_u256_range_witness :
  (exists b, encode_u256 386866 = Ok b
             /\ List.length b = 32%nat /\ from_bytes b = 386866)
  /\ encode_u256 (-1) = Raise OverflowError
  /\ encode_u256 (2 ^ 256) = Raise OverflowError.
Proof.
  split; [|split].
  - apply (proj1 (encode_u256_range 386866)). lia.
  - apply (proj2 (encode_u256_range (-1))). lia.
  - apply (proj2 (encode_u256_range (2 ^ 256))). lia.
Defined.

(** C4, as stated, fails: an address whose content is not 20 bytes long is
    not rejected.  The two-byte content of ["0x1234"] is encoded without
    any error. *)
Lemma encode_address_accepts_short_input :
  ~ (forall (address : string) (b : bytes),
        fromhex (slice_from 2 address) = Ok b ->
        List.length b <> 20%nat ->
        exists e, encode_address address = Raise e).
Proof.
  intros H.
  destruct (H "0x1234"%string [x12; x34]) as [e He].
  - reflexivity.
  - simpl. lia.
  - discriminate He.
Qed.

(** C4, amended: when the hexadecimal content of the address decodes to
    the bytes [b], [encode_address] returns 12 zero bytes followed by [b],
    which is the 32-byte padded address when [b] is 20 bytes long; no
    length is checked, so for another length the result has
    [12 + length b] bytes and no error is raised. *)
Theorem encode_address_padding (address : string) (b : bytes) :
  fromhex (slice_from 2 address) = Ok b ->
  exists out,
    encode_address address = Ok out
    /\ out = repeat x00 12 ++ b
    /\ List.length out = (12 + List.length b)%nat
    /\ (List.length b = 20%nat ->
        List.length out = 32%nat
        /\ firstn 12 out = repeat x00 12 /\ skipn 12 out = b).
Proof.
  intros H. exists (repeat x00 12 ++ b).
  split; [apply encode_address_ok; assumption|].
  split; [reflexivity|].
  split; [rewrite length_app, repeat_length; reflexivity|].
  intros Hb. split; [rewrite length_app, repeat_length, Hb; reflexivity|].
  split; reflexivity.
Qed.

Lemma encode_address_padding_witness :
  exists out,
    encode_address Script.VERIFYING_CONTRACT = Ok out
    /\ out = repeat x00 12
               ++ [ x5d; xe1; xc2; x16; x82; xef; x8b; x39; xae; xb0;
                    xba; x9f; xa6; x06; x8c; x65; x0d; x3f; x74; x4e ]
    /\ List.length out = 32%nat
    /\ (20 = 20 ->
        List.length out = 32%nat
        /\ firstn 12 out = repeat x00 12
        /\ skipn 12 out
           = [ x5d; xe1; xc2; x16; x82; xef; x8b; x39; xae; xb0;
               xba; x9f; xa6; x06; x8c; x65; x0d; x3f; x74; x4e ])%nat.
Proof.
  apply (encode_address_padding Script.VERIFYING_CONTRACT
           [ x5d; xe1; xc2; x16; x82; xef; x8b; x39; xae; xb0;
             xba; x9f; xa6; x06; x8c; x65; x0d; x3f; x74; x4e ]).
  reflexivity.
Defined.

(** C5: the struct hash of the script's [DataNodeRequest] instance is
    [keccak256] of the type hash of the canonical type string followed by
    the 32-byte encodings of method, path, timestamp and nonce, in schema
    order; it is the specification's [structHash] of that instance. *)
Theorem struct_hash_of_request :
  Spec.typeSignature "DataNodeRequest"
      (Spec.DataNodeRequest "GET" "/api/v1/prices/finnhub" 1770084386 386866)
  = "DataNodeRequest(string method,string path,uint256 timestamp,uint256 nonce)"%string
  /\ Script.struct_hash
     = Spec.structHash "DataNodeRequest"
         (Spec.DataNodeRequest "GET" "/api/v1/prices/finnhub"
                               1770084386 386866)
  /\ Script.struct_hash
     = Ok (keccak256
             (keccak256
                (encode_utf8
                   "DataNodeRequest(string method,string path,uint256 timestamp,uint256 nonce)")
              ++ keccak256 (encode_utf8 "GET")
              ++ keccak256 (encode_utf8 "/api/v1/prices/finnhub")
              ++ big_endian 32 1770084386
              ++ big_endian 32 386866)).
Proof.
  split; [reflexivity|]. split.
  - apply struct_hash_refines.
  - reflexivity.
Qed.

(** C6: the domain separator is the struct hash of [EIP712Domain] over the
    present fields name, version, chainId and verifyingContract in that
    order, that is [keccak256] of the domain type hash, the hashes of name
    and version, [encode_u256] of the chain id and [encode_address] of the
    contract. *)
Theorem domain_separator_is_struct_hash
        (name version : string) (chain_id : Z) (contract : string) :
  Domain.domain_separator Script.DOMAIN_TYPE name version chain_id contract
  = Spec.domainSeparator
      {| Spec.name := Some name; Spec.version := Some version;
         Spec.chainId := Some chain_id;
         Spec.verifyingContract := Some contract |}
  /\ Domain.domain_separator Script.DOMAIN_TYPE name version chain_id contract
     = (c <- encode_u256 chain_id ;;
        a <- encode_address contract ;;
        Ok (keccak256
              (keccak256 (encode_utf8 Script.DOMAIN_TYPE)
               ++ keccak256 (encode_utf8 name)
               ++ keccak256 (encode_utf8 version) ++ c ++ a))).
Proof.
  split; [apply domain_separator_refines|].
  unfold Domain.domain_separator, Domain.domain_data, Domain.chain_id_bytes,
    Domain.address_bytes.
  destruct (encode_u256 chain_id) as [c|e]; cbn [bind]; [|reflexivity].
  destruct (encode_address contract) as [a|e]; reflexivity.
Qed.

(** C7: [keccak256] returns exactly 32 bytes for every input, and equal
    inputs give equal digests. *)
Theorem keccak256_deterministic_32_bytes (b b' : bytes) :
  b = b' ->
  List.length (keccak256 b) = 32%nat /\ keccak256 b = keccak256 b'.
Proof.
  intros <-. split; [apply keccak256_length | reflexivity].
Qed.

Lemma keccak256_deterministic_32_bytes_witness :
  List.length (keccak256 [x19; x01]) = 32%nat
  /\ keccak256 [x19; x01] = keccak256 ([x19] ++ [x01]).
Proof.
  apply (keccak256_deterministic_32_bytes [x19; x01] ([x19] ++ [x01])).
  reflexivity.
Defined.

(** C8: the three digests the script computes have the hexadecimal forms
    held in [ts_domain_sep], [ts_struct_hash] and [ts_message_hash], so the
    three comparisons are all [True]. *)
Theorem script_matches_typescript :
  hex_is Script.domain_separator
         "b54e71ed181dc14d1d4268384ffba108241611e40a16197e69b9fb4468c862df"
  /\ hex_is Script.struct_hash
            "f126db3247e509f0c1215cdbbbfa462f367efb5c5bef8bff98534f6c2e82a0ee"
  /\ hex_is Script.message_hash
            "af7fdd88b4ec5903cee293d25f8edde9e97ed9dc9aef5a5261cd1338e10d9a7d"
  /\ Script.domain_separator_match = Ok true
  /\ Script.struct_hash_match = Ok true
  /\ Script.message_hash_match = Ok true.
Proof.
  unfold Script.domain_separator_match, Script.struct_hash_match,
    Script.message_hash_match.
  rewrite domain_separator_value, struct_hash_value, message_hash_value.
  repeat split.
Qed.

(** C9: for [0 <= v < 2^256], [encode_u256 v] has 32 bytes and decodes, as
    a big-endian unsigned integer, to [v]. *)
Theorem encode_u256_round_trip (v : Z) :
  0 <= v < 2 ^ 256 ->
  exists b, encode_u256 v = Ok b
            /\ from_bytes b = v /\ List.length b = 32%nat.
Proof.
  intros H. exists (big_endian 32 v). unfold encode_u256.
  rewrite to_bytes_in_range by (rewrite pow_256_32; exact H).
  split; [reflexivity|]. split; [|apply big_endian_length].
  rewrite from_bytes_big_endian, pow_256_32. apply Z.mod_small. exact H.
Qed.

Lemma encode_u256_round_trip_witness :
  exists b, encode_u256 Script.CHAIN_ID = Ok b
            /\ from_bytes b = Script.CHAIN_ID /\ List.length b = 32%nat.
Proof.
  apply (encode_u256_round_trip Script.CHAIN_ID).
  unfold Script.CHAIN_ID. lia.
Defined.

(** C10: [encode_address] checks no length: when the characters after the
    first two are [2 n] hexadecimal digits it returns [12 + n] bytes and
    raises nothing, so for [n <> 20] the result is not 32 bytes long. *)
Theorem encode_address_no_length_check (address : string) (n : nat) :
  Forall (fun c => is_hex_digit c = true)
         (list_ascii_of_string (slice_from 2 address)) ->
  List.length (list_ascii_of_string (slice_from 2 address)) = (2 * n)%nat ->
  exists out,
    encode_address address = Ok out
    /\ List.length out = (12 + n)%nat
    /\ (n <> 20%nat -> List.length out <> 32%nat).
Proof.
  intros Hall Hlen.
  destruct (fromhex_chars_digits n _ Hlen Hall) as [b [Hb Hn]].
  exists (repeat x00 12 ++ b).
  split; [apply encode_address_ok; exact Hb|].
  assert (Hout : List.length (repeat x00 12 ++ b) = (12 + n)%nat)
    by (rewrite length_app, repeat_length, Hn; reflexivity).
  split; [exact Hout|]. intros Hne. rewrite Hout. lia.
Qed.

Lemma encode_address_no_length_check_witness :
  exists out,
    encode_address "0x1234" = Ok out
    /\ List.length out = 14%nat
    /\ (2 <> 20 -> List.length out <> 32)%nat.
Proof.
  apply (encode_address_no_length_check "0x1234" 2).
  - repeat constructor.
  - reflexivity.
Defined.

(** * Further properties of the script's code *)

(** ** [encode_u256] and big-endian bytes *)

Lemma byte_of_Z_of_byte (x : byte) : byte_of_Z (Z_of_byte x) = x.
Proof.
  unfold byte_of_Z, Z_of_byte.
  pose proof (Byte.to_N_bounded x) as Hx.
  rewrite Z.mod_small by lia. rewrite N2Z.id, Byte.of_to_N. reflexivity.
Qed.

Lemma byte_of_Z_mod (z : Z) : byte_of_Z (z mod 256) = byte_of_Z z.
Proof.
  unfold byte_of_Z. rewrite Z.mod_mod by lia. reflexivity.
Qed.

Lemma from_bytes_bounds (b : bytes) :
  0 <= from_bytes b < 256 ^ Z.of_nat (List.length b).
Proof.
  induction b as [|x l IH] using rev_ind.
  - unfold from_bytes. simpl. lia.
  - rewrite from_bytes_snoc, length_app. cbn [List.length].
    rewrite Nat.add_1_r, Nat2Z.inj_succ, Z.pow_succ_r by lia.
    pose proof (Z_of_byte_range x). lia.
Qed.

Lemma big_endian_from_bytes (b : bytes) :
  big_endian (List.length b) (from_bytes b) = b.
Proof.
  induction b as [|x l IH] using rev_ind.
  - reflexivity.
  - rewrite from_bytes_snoc, length_app. cbn [List.length].
    rewrite Nat.add_1_r. cbn [big_endian].
    pose proof (Z_of_byte_range x) as Hx.
    assert (Ediv : (256 * from_bytes l + Z_of_byte x) / 256 = from_bytes l)
      by (rewrite Z.mul_comm, Z.div_add_l, Z.div_small by lia; lia).
    assert (Emod : (256 * from_bytes l + Z_of_byte x) mod 256 = Z_of_byte x)
      by (rewrite Z.add_comm, Z.mul_comm, Z.mod_add, Z.mod_small by lia;
          reflexivity).
    rewrite Ediv, IH. f_equal. f_equal.
    rewrite <- byte_of_Z_mod, Emod. apply byte_of_Z_of_byte.
Qed.

Lemma big_endian_zero (n : nat) : big_endian n 0 = repeat x00 n.
Proof.
  induction n as [|n IH].
  - reflexivity.
  - cbn [big_endian repeat]. rewrite Z.div_0_l by lia. rewrite IH.
    symmetry. apply repeat_cons.
Qed.

Lemma big_endian_small (k m : nat) :
  forall v : Z, 0 <= v < 256 ^ Z.of_nat k ->
                big_endian (m + k) v = repeat x00 m ++ big_endian k v.
Proof.
  induction k as [|k IH]; intros v Hv.
  - simpl in Hv. assert (v = 0) by lia. subst v.
    rewrite Nat.add_0_r, big_endian_zero, app_nil_r. reflexivity.
  - rewrite Nat.add_succ_r. cbn [big_endian].
    rewrite IH, app_assoc; [reflexivity|].
    rewrite Nat2Z.inj_succ, Z.pow_succ_r in Hv by lia.
    split; [apply Z.div_pos; lia | apply Z.div_lt_upper_bound; lia].
Qed.

Lemma encode_u256_ok_inv (v : Z) (b : bytes) :
  encode_u256 v = Ok b -> 0 <= v < 2 ^ 256 /\ b = big_endian 32 v.
Proof.
  unfold encode_u256, to_bytes. rewrite pow_256_32.
  destruct (Z.ltb_spec v 0); [discriminate|].
  destruct (Z.leb_spec (2 ^ 256) v); [discriminate|].
  intros H1. injection H1 as <-. split; [lia | reflexivity].
Qed.

Lemma encode_u256_length (v : Z) (b : bytes) :
  encode_u256 v = Ok b -> List.length b = 32%nat.
Proof.
  intros H. apply encode_u256_ok_inv in H as [_ ->]. apply big_endian_length.
Qed.

(** X1: [encode_u256] never gives two different values the same bytes. *)
Theorem encode_u256_injective (v w : Z) (b : bytes) :
  encode_u256 v = Ok b -> encode_u256 w = Ok b -> v = w.
Proof.
  intros Hv Hw.
  apply encode_u256_ok_inv in Hv as [Rv Ev].
  apply encode_u256_ok_inv in Hw as [Rw Ew].
  assert (E : from_bytes (big_endian 32 v) = from_bytes (big_endian 32 w))
    by congruence.
  rewrite !from_bytes_big_endian, pow_256_32 in E.
  rewrite !Z.mod_small in E by assumption. exact E.
Qed.

Lemma encode_u256_injective_witness :
  Script.TIMESTAMP = 1770084386.
Proof.
  apply (encode_u256_injective Script.TIMESTAMP 1770084386
           (big_endian 32 1770084386)); reflexivity.
Defined.

(** X2: every 32-byte string is the encoding of the integer it denotes:
    [encode_u256] of the big-endian value of 32 bytes gives those bytes
    back. *)
Theorem encode_u256_of_from_bytes (b : bytes) :
  List.length b = 32%nat -> encode_u256 (from_bytes b) = Ok b.
Proof.
  intros Hb. unfold encode_u256.
  pose proof (from_bytes_bounds b) as Hr. rewrite Hb in Hr.
  rewrite to_bytes_in_range by exact Hr.
  rewrite <- Hb at 1. rewrite big_endian_from_bytes. reflexivity.
Qed.

Lemma encode_u256_of_from_bytes_witness :
  encode_u256 (from_bytes domain_separator_bytes) = Ok domain_separator_bytes.
Proof.
  apply (encode_u256_of_from_bytes domain_separator_bytes). reflexivity.
Defined.

(** X3: the encoding is padded on the left: a value below [256^k], with
    [k <= 32], is encoded as [32 - k] zero bytes followed by its [k]
    big-endian bytes. *)
Theorem encode_u256_left_padded (v : Z) (k : nat) :
  (k <= 32)%nat -> 0 <= v < 256 ^ Z.of_nat k ->
  encode_u256 v = Ok (repeat x00 (32 - k) ++ big_endian k v).
Proof.
  intros Hk Hv. unfold encode_u256.
  assert (Hle : 256 ^ Z.of_nat k <= 256 ^ Z.of_nat 32)
    by (apply Z.pow_le_mono_r; lia).
  rewrite to_bytes_in_range by lia.
  replace 32%nat with ((32 - k) + k)%nat at 1 by lia.
  rewrite big_endian_small by exact Hv. reflexivity.
Qed.

Lemma encode_u256_left_padded_witness :
  encode_u256 Script.CHAIN_ID
  = Ok (repeat x00 28 ++ [x06; xa1; x1e; x3d]).
Proof.
  apply (encode_u256_left_padded Script.CHAIN_ID 4).
  - lia.
  - unfold Script.CHAIN_ID. lia.
Defined.

(** ** [bytes.hex], [bytes.fromhex] and [encode_address] *)

Lemma fromhex_chars_hex_byte (x : byte) (rest : list ascii) :
  fromhex_chars (hex_digit (Z_of_byte x / 16)
                   :: hex_digit (Z_of_byte x mod 16) :: rest)
  = (tail <- fromhex_chars rest ;; Ok (x :: tail)).
Proof.
  destruct x; reflexivity.
Qed.

Lemma hex_length (b : bytes) :
  String.length (hex b) = (2 * List.length b)%nat.
Proof.
  induction b as [|x b IH]; simpl.
  - reflexivity.
  - rewrite IH. lia.
Qed.

Lemma fromhex_chars_hex (b : bytes) :
  fromhex_chars (list_ascii_of_string (hex b)) = Ok b.
Proof.
  induction b as [|x b IH].
  - reflexivity.
  - cbn [hex list_ascii_of_string].
    rewrite fromhex_chars_hex_byte, IH. reflexivity.
Qed.

(** X4: [bytes.fromhex] undoes [bytes.hex], whose output has two
    characters per byte. *)
Theorem fromhex_hex (b : bytes) :
  fromhex (hex b) = Ok b /\ String.length (hex b) = (2 * List.length b)%nat.
Proof.
  split; [apply fromhex_chars_hex | apply hex_length].
Qed.

(** X5: the comparison of a digest's [hex()] with a string can only be
    [True] for a string of twice as many characters that [bytes.fromhex]
    decodes to the digest. *)
Theorem hex_comparison_sound (d : bytes) (s : string) :
  String.eqb (hex d) s = true ->
  fromhex s = Ok d /\ String.length s = (2 * List.length d)%nat.
Proof.
  intros H. apply String.eqb_eq in H. subst s.
  split; [apply fromhex_chars_hex | apply hex_length].
Qed.

Lemma hex_comparison_sound_witness :
  fromhex Script.ts_message_hash = Ok message_hash_bytes
  /\ String.length Script.ts_message_hash = 64%nat.
Proof.
  apply (hex_comparison_sound message_hash_bytes Script.ts_message_hash).
  reflexivity.
Defined.

(** X6: [encode_address] drops the first two characters whatever they
    are, and decodes what [hex] printed: for all bytes [b], the address
    made of any two characters followed by [b.hex()] is encoded as 12 zero
    bytes followed by [b]. *)
Theorem encode_address_of_hex (c1 c2 : ascii) (b : bytes) :
  encode_address (String c1 (String c2 (hex b))) = Ok (repeat x00 12 ++ b).
Proof.
  apply encode_address_ok. cbn [slice_from]. apply fromhex_chars_hex.
Qed.

(** X7: an address of at most two characters has no content: it is
    encoded as 12 zero bytes, without error. *)
Theorem encode_address_no_content (address : string) :
  (String.length address <= 2)%nat ->
  encode_address address = Ok (repeat x00 12).
Proof.
  intros H. destruct address as [|c1 [|c2 [|c3 s]]];
    try reflexivity.
  simpl in H. lia.
Qed.

Lemma encode_address_no_content_witness :
  encode_address "0x" = Ok (repeat x00 12).
Proof.
  apply (encode_address_no_content "0x"). simpl. lia.
Defined.

Lemma fromhex_chars_bad_char (n : nat) :
  forall (l : list ascii) (c : ascii),
    (List.length l <= n)%nat ->
    In c l -> is_hex_digit c = false -> is_space c = false ->
    fromhex_chars l = Raise ValueError.
Proof.
  induction n as [|n IH]; intros l c Hlen Hin Hd Hs.
  - destruct l; [destruct Hin | simpl in Hlen; lia].
  - destruct l as [|a rest]; [destruct Hin|].
    cbn [fromhex_chars]. simpl in Hlen.
    destruct (is_space a) eqn:Sa.
    + destruct Hin as [-> | Hin]; [congruence|].
      apply (IH rest c); [lia | assumption..].
    + destruct (digit_value a) as [top|] eqn:Da; [|reflexivity].
      destruct rest as [|d rest']; [reflexivity|].
      destruct (digit_value d) as [bot|] eqn:Dd; [|reflexivity].
      assert (Hin' : In c rest').
      { unfold is_hex_digit in Hd.
        destruct Hin as [-> | [-> | Hin]];
          [rewrite Da in Hd; discriminate
          |rewrite Dd in Hd; discriminate
          |exact Hin]. }
      rewrite (IH rest' c); [reflexivity | simpl in Hlen; lia | assumption..].
Qed.

(** X8: an address whose content has a character that is neither a
    hexadecimal digit nor ASCII whitespace is refused with [ValueError]. *)
Theorem encode_address_bad_character (address : string) (c : ascii) :
  In c (list_ascii_of_string (slice_from 2 address)) ->
  is_hex_digit c = false -> is_space c = false ->
  encode_address address = Raise ValueError.
Proof.
  intros Hin Hd Hs. unfold encode_address, fromhex.
  rewrite (fromhex_chars_bad_char _ _ c (Nat.le_refl _) Hin Hd Hs).
  reflexivity.
Qed.

Lemma encode_address_bad_character_witness :
  encode_address "0x5dE1C21682EF8b39aeB0BA9FA6068C650d3f74zz"
  = Raise ValueError.
Proof.
  apply (encode_address_bad_character
           "0x5dE1C21682EF8b39aeB0BA9FA6068C650d3f74zz" "z"%char).
  - simpl. repeat (try (left; reflexivity); right).
  - reflexivity.
  - reflexivity.
Defined.

Lemma fromhex_chars_odd_digits (n : nat) :
  forall l : list ascii,
    List.length l = S (2 * n) ->
    Forall (fun c => is_hex_digit c = true) l ->
    fromhex_chars l = Raise ValueError.
Proof.
  induction n as [|n IH]; intros l Hlen Hall.
  - destruct l as [|c [|d rest]]; try discriminate.
    inversion Hall as [|? ? Hc _]; subst.
    cbn [fromhex_chars]. rewrite (hex_digit_not_space c Hc).
    destruct (digit_value c); reflexivity.
  - destruct l as [|c [|d rest]]; try (simpl in Hlen; lia).
    inversion Hall as [|? ? Hc Hall']; subst.
    inversion Hall' as [|? ? Hd Hrest]; subst.
    cbn [fromhex_chars]. rewrite (hex_digit_not_space c Hc).
    unfold is_hex_digit in Hc, Hd.
    destruct (digit_value c); [|discriminate].
    destruct (digit_value d); [|discriminate].
    rewrite (IH rest); [reflexivity | simpl in Hlen; lia | assumption].
Qed.

(** X9: an address whose content is an odd number of hexadecimal digits is
    refused with [ValueError]: no half byte is encoded. *)
Theorem encode_address_odd_digits (address : string) (n : nat) :
  Forall (fun c => is_hex_digit c = true)
         (list_ascii_of_string (slice_from 2 address)) ->
  List.length (list_ascii_of_string (slice_from 2 address)) = S (2 * n) ->
  encode_address address = Raise ValueError.
Proof.
  intros Hall Hlen. unfold encode_address, fromhex.
  rewrite (fromhex_chars_odd_digits n _ Hlen Hall). reflexivity.
Qed.

Lemma encode_address_odd_digits_witness :
  encode_address "0x123" = Raise ValueError.
Proof.
  apply (encode_address_odd_digits "0x123" 1).
  - repeat constructor.
  - reflexivity.
Defined.




(** ** The message and the two digests *)

Lemma app_eq_same_length {A : Type} (a a' b b' : list A) :
  List.length a = List.length a' -> a ++ b = a' ++ b' -> a = a' /\ b = b'.
Proof.
  revert a'. induction a as [|x a IH]; intros [|x' a'] Hlen H;
    try discriminate.
  - split; [reflexivity | exact H].
  - injection H as -> H. injection Hlen as Hlen.
    destruct (IH a' Hlen H) as [-> ->]. split; reflexivity.
Qed.

(** X11: for domain separators of one length, as digests are, the message
    determines both the domain separator and the struct hash: two
    different pairs never give the same message. *)
Theorem message_injective (d d' s s' : bytes) :
  List.length d = List.length d' ->
  Message.message d s = Message.message d' s' -> d = d' /\ s = s'.
Proof.
  unfold Message.message. intros Hlen H.
  injection H as H. exact (app_eq_same_length d d' s s' Hlen H).
Qed.

Lemma message_injective_witness :
  domain_separator_bytes = domain_separator_bytes
  /\ struct_hash_bytes = struct_hash_bytes.
Proof.
  apply (message_injective domain_separator_bytes domain_separator_bytes
           struct_hash_bytes struct_hash_bytes); reflexivity.
Defined.

(** ** Errors and sizes of the struct hash and the domain separator *)

Section Sizes.
Variables (T A B : string) (m n : Z).

(** X12: the struct data, when timestamp and nonce are both encoded, is
    160 bytes long: five 32-byte words. *)
Theorem struct_data_length (data : bytes) :
  Struct.struct_data T A B m n = Ok data -> List.length data = 160%nat.
Proof.
  unfold Struct.struct_data, Struct.timestamp_bytes, Struct.nonce_bytes,
    Struct.struct_type_hash, Struct.method_hash, Struct.path_hash.
  destruct (encode_u256 m) as [t|] eqn:Et; cbn [bind]; [|discriminate].
  destruct (encode_u256 n) as [c|] eqn:Ec; cbn [bind]; [|discriminate].
  intros H. injection H as <-.
  rewrite !length_app, !keccak256_length,
    (encode_u256_length _ _ Et), (encode_u256_length _ _ Ec).
  reflexivity.
Qed.



End Sizes.

Lemma struct_data_length_witness :
  List.length
    (Struct.struct_type_hash Script.STRUCT_TYPE
       ++ Struct.method_hash Script.METHOD ++ Struct.path_hash Script.PATH
       ++ big_endian 32 Script.TIMESTAMP ++ big_endian 32 Script.NONCE)
  = 160%nat.
Proof.
  apply (struct_data_length Script.STRUCT_TYPE Script.METHOD Script.PATH
           Script.TIMESTAMP Script.NONCE).
  reflexivity.
Defined.



Section DomainErrors.
Variables (T A B : string) (chain_id : Z) (contract : string).

(** X15: the domain data is the four 32-byte words followed by the
    encoded address, so it is 160 bytes long exactly when the content of
    the address decodes to 20 bytes; for a content of another length the
    domain data is still built, with another size. *)
Theorem domain_data_length (data addr : bytes) :
  Domain.domain_data T A B chain_id contract = Ok data ->
  fromhex (slice_from 2 contract) = Ok addr ->
  List.length data = (140 + List.length addr)%nat
  /\ (List.length data = 160%nat <-> List.length addr = 20%nat).
Proof.
  unfold Domain.domain_data, Domain.chain_id_bytes, Domain.address_bytes,
    Domain.domain_type_hash, Domain.name_hash, Domain.version_hash.
  intros H Ha. rewrite (encode_address_ok _ _ Ha) in H.
  destruct (encode_u256 chain_id) as [c|] eqn:Ec; cbn [bind] in H;
    [|discriminate].
  injection H as <-.
  rewrite !length_app, !keccak256_length, (encode_u256_length _ _ Ec).
  cbn [List.length]. lia.
Qed.



End DomainErrors.

Lemma domain_data_length_witness :
  List.length
    (Domain.domain_type_hash Script.DOMAIN_TYPE
       ++ Domain.name_hash Script.NAME ++ Domain.version_hash Script.VERSION
       ++ big_endian 32 Script.CHAIN_ID ++ repeat x00 12 ++ [x12; x34])
  = 142%nat
  /\ (List.length
        (Domain.domain_type_hash Script.DOMAIN_TYPE
           ++ Domain.name_hash Script.NAME
           ++ Domain.version_hash Script.VERSION
           ++ big_endian 32 Script.CHAIN_ID ++ repeat x00 12 ++ [x12; x34])
      = 160%nat <-> 2%nat = 20%nat).
Proof.
  apply (domain_data_length Script.DOMAIN_TYPE Script.NAME Script.VERSION
           Script.CHAIN_ID "0x1234" _ [x12; x34]); reflexivity.
Defined.



(** X18: whatever the constants are, when the domain separator and the
    struct hash are both computed they are 32 bytes each, so the message
    is 66 bytes long and starts with 0x19 0x01 and the domain
    separator. *)
Theorem message_of_digests
        (T A B : string) (chain_id : Z) (contract : string)
        (T' A' B' : string) (m n : Z) (d s : bytes) :
  Domain.domain_separator T A B chain_id contract = Ok d ->
  Struct.struct_hash T' A' B' m n = Ok s ->
  List.length (Message.message d s) = 66%nat
  /\ firstn 34 (Message.message d s) = x19 :: x01 :: d
  /\ skipn 34 (Message.message d s) = s.
Proof.
  unfold Domain.domain_separator, Struct.struct_hash. intros Hd Hs.
  assert (Ld : List.length d = 32%nat).
  { destruct (Domain.domain_data T A B chain_id contract); cbn [bind] in Hd;
      [injection Hd as <-; apply keccak256_length | discriminate]. }
  assert (Ls : List.length s = 32%nat).
  { destruct (Struct.struct_data T' A' B' m n); cbn [bind] in Hs;
      [injection Hs as <-; apply keccak256_length | discriminate]. }
  unfold Message.message.
  change ([x19; x01] ++ d ++ s) with ((x19 :: x01 :: d) ++ s).
  assert (L : List.length (x19 :: x01 :: d) = 34%nat) by (simpl; lia).
  split; [rewrite length_app, L, Ls; reflexivity|].
  split.
  - rewrite <- L, firstn_app, Nat.sub_diag, firstn_all. cbn [firstn].
    apply app_nil_r.
  - rewrite <- L, skipn_app, Nat.sub_diag, skipn_all. reflexivity.
Qed.

Lemma message_of_digests_witness :
  List.length (Message.message domain_separator_bytes struct_hash_bytes)
  = 66%nat
  /\ firstn 34 (Message.message domain_separator_bytes struct_hash_bytes)
     = x19 :: x01 :: domain_separator_bytes
  /\ skipn 34 (Message.message domain_separator_bytes struct_hash_bytes)
     = struct_hash_bytes.
Proof.
  apply (message_of_digests
           Script.DOMAIN_TYPE Script.NAME Script.VERSION Script.CHAIN_ID
           Script.VERIFYING_CONTRACT
           Script.STRUCT_TYPE Script.METHOD Script.PATH Script.TIMESTAMP
           Script.NONCE).
  - exact domain_separator_value.
  - exact struct_hash_value.
Defined.

(** ** The hash object behind [keccak256] *)








(** ** [str.encode('utf-8')] *)

Lemma utf8_char_ascii (c : ascii) :
  (N_of_ascii c < 128)%N -> utf8_char c = [byte_of_ascii c].
Proof.
  destruct c as [b0 b1 b2 b3 b4 b5 b6 []].
  - intros H. exfalso. revert H.
    destruct b0, b1, b2, b3, b4, b5, b6; vm_compute; discriminate.
  - intros _. destruct b0, b1, b2, b3, b4, b5, b6; reflexivity.
Qed.

(** X21: a string of ASCII characters, as the script's type strings and
    field values are, is encoded as its characters, one byte each. *)
Theorem encode_utf8_ascii (s : string) :
  Forall (fun c => (N_of_ascii c < 128)%N) (list_ascii_of_string s) ->
  encode_utf8 s = map byte_of_ascii (list_ascii_of_string s)
  /\ List.length (encode_utf8 s) = String.length s.
Proof.
  unfold encode_utf8. induction s as [|c s IH]; intros H.
  - split; reflexivity.
  - cbn [list_ascii_of_string] in H. inversion H as [|? ? Hc Hs]; subst.
    destruct (IH Hs) as [E L].
    cbn [list_ascii_of_string flat_map map String.length].
    rewrite (utf8_char_ascii c Hc), E. split; [reflexivity|].
    cbn [app List.length]. rewrite <- E, L. reflexivity.
Qed.

Lemma encode_utf8_ascii_witness :
  encode_utf8 "GET" = [x47; x45; x54]
  /\ List.length (encode_utf8 "GET") = 3%nat.
Proof.
  apply (encode_utf8_ascii "GET").
  repeat constructor.
Defined.
